(** * Conversation / message synchronisation layer of the analytics dashboard

    A shallow embedding of the browser-side code that pages conversations and
    messages, merges push-delivered messages and filters the sidebar:

    - [DataService.cachedFetch]   (services/DataService.js)
    - [AgentsPage]                (components/AgentsPage.js): [handleNewMessage],
      [loadConversationsData], [loadMoreConversations], [selectConversation],
      [loadConversationMessages], [loadMoreMessages], [filterConversations],
      [getTimeRangeMs], [getStateCategory].

    JavaScript numbers that hold page indexes and millisecond clocks are [Z];
    [Map]s and plain objects used as dictionaries are [gmap string _]; arrays
    are lists; text is [string], a sequence of characters with 8-bit codes.
    [String.prototype.toLowerCase] is a built-in of the runtime: the code that
    calls it takes it as a parameter, and what it does is fixed on ASCII text
    only.  An [async] method is split at its [await]: the part that runs
    synchronously inside the caller's turn of the event loop keeps the method's
    name, and the continuation that runs once the awaited promise settles is
    named [..._settled]; the locals the continuation closes over are carried in
    a record. *)

From Stdlib Require Import ZArith Ascii String List Lia Bool.
From Stdlib Require Import DecimalString.
From stdpp Require Import base option list strings gmap.

Import ListNotations.
Local Open Scope Z_scope.
Local Open Scope string_scope.

(** ** Strings as the code uses them *)

Module Js.

(** The double-quote character, as [JSON.stringify] emits around keys. *)
Definition dquote : string := String (ascii_of_nat 34) EmptyString.

(** [`${n}`] for an integer-valued number. *)
Definition ofZ (n : Z) : string := NilZero.string_of_int (Z.to_int n).







End Js.

(** ** DataService.cachedFetch *)

Module DataService.

(** The [options] argument.  Every caller under the repository passes
  either nothing or [{ cacheDuration }]. *)
Record Options := { cacheDuration : option Z }.

Definition noOptions : Options := {| cacheDuration := None |}.

(** [JSON.stringify(options)]. *)
Definition stringify (o : Options) : string :=
match cacheDuration o with
| None => "{}"
| Some d => "{" ++ Js.dquote ++ "cacheDuration" ++ Js.dquote ++ ":" ++ Js.ofZ d ++ "}"
end.

(** [`${endpoint}_${JSON.stringify(options)}`] *)
Definition cacheKey (endpoint : string) (o : Options) : string :=
endpoint ++ "_" ++ stringify o.

(** [options.cacheDuration || 30000] *)
Definition effectiveDuration (o : Options) : Z :=
match cacheDuration o with
| Some d => if (d =? 0)%Z then 30000 else d
| None => 30000
end.

Section WithData.
(** The parsed JSON body; the service is generic in it. *)
Context {D : Type}.

Record CacheEntry := { data : D; timestamp : Z }.

(** What the [try] block runs into: [fetch] resolves with an OK response
    whose body parses, resolves with a non-OK status (the code then throws
    [HTTP error! status: ...]), or [fetch]/[response.json()] throws. *)
Inductive Network :=
| NetOk (body : D)
| NetStatus (status : Z)
| NetThrows (message : string).

Definition networkFailed (n : Network) : bool :=
  match n with NetOk _ => false | _ => true end.

(** The error object reaching the [catch] block. *)
Definition errorOf (n : Network) : string :=
  match n with
  | NetOk _ => ""
  | NetStatus st => "HTTP error! status: " ++ Js.ofZ st
  | NetThrows msg => msg
  end.

(** Result of the promise returned by [cachedFetch]. *)
Inductive Settled :=
| Returned (d : D)
| Raised (error : string).

(** Locals alive across [await fetch(...)]. *)
Record Awaiting := { aw_cacheKey : string; aw_now : Z }.

(** Synchronous part: serve a fresh cache entry, or issue the request. *)
Definition cachedFetch (endpoint : string) (o : Options) (now : Z)
           (cache : gmap string CacheEntry) : D + Awaiting :=
  let key := cacheKey endpoint o in
  let duration := effectiveDuration o in
  match cache !! key with
  | Some cached =>
      if (now - timestamp cached <? duration)%Z then inl (data cached)
      else inr {| aw_cacheKey := key; aw_now := now |}
  | None => inr {| aw_cacheKey := key; aw_now := now |}
  end.

(** Continuation once the network call has settled; [cache] is the map as
    it is at that moment. *)
Definition cachedFetch_settled (k : Awaiting) (net : Network)
           (cache : gmap string CacheEntry) : Settled * gmap string CacheEntry :=
  match net with
  | NetOk body =>
      (Returned body,
       <[aw_cacheKey k := {| data := body; timestamp := aw_now k |}]> cache)
  | _ =>
      match cache !! aw_cacheKey k with
      | Some cached => (Returned (data cached), cache)
      | None => (Raised (errorOf net), cache)
      end
  end.

(** A whole call during which nothing else touches the cache. *)
Definition cachedFetch_run (endpoint : string) (o : Options) (now : Z)
           (net : Network) (cache : gmap string CacheEntry)
  : Settled * gmap string CacheEntry :=
  match cachedFetch endpoint o now cache with
  | inl d => (Returned d, cache)
  | inr k => cachedFetch_settled k net cache
  end.

End WithData.
Arguments CacheEntry : clear implicits.
Arguments Network : clear implicits.
Arguments Settled : clear implicits.

End DataService.

(** ** AgentsPage: data *)

Module AgentsPage.

(** A message as the handlers look at it.  [msg_id] is [message.id], which a
    push-delivered message may lack ([None] is JavaScript's [undefined]). *)
Record Message := {
  msg_id : option string;
  role : string;
  timestamp : string;
  content : string
}.

(** A conversation of the sidebar.  [lastModified] is
    [new Date(conv.lastModified).getTime()]: [None] stands for [NaN], the
    value of an unparsable date, which fails every comparison. *)
Record Conversation := {
  conv_id : string;
  title : option string;
  project : option string;
  lastMessage : option string;
  lastModified : option Z;
  messageCount : Z
}.

(** [this.filters] *)
Record Filters := {
  status : string;
  timeRange : string;
  search : string
}.

(** [this.pagination] and [this.messagesPagination].  The conversation cursor
    is created without a [conversationId] property; reading it would give
    [undefined], which is [None] here as well. *)
Record Cursor := {
  currentPage : Z;
  limit : Z;
  hasMore : bool;
  isLoading : bool;
  conversationId : option string
}.

(** The [pagination] object of a server response. *)
Record PageInfo := {
  page : Z;
  pi_hasMore : bool;
  totalCount : Z
}.

(** Body of [/api/conversations?page=..&limit=..]. *)
Record ConversationsData := {
  conversations : list Conversation;
  cd_pagination : PageInfo
}.

(** Body of [/api/conversation-state] after [statesData?.activeStates]:
    [None] when the body or the property is missing. *)
Abbreviation StatesData := (option (gmap string string)).

(** Body of [/api/conversations/<id>/messages?page=..&limit=..]; both
    properties may be missing. *)
Record MessagesData := {
  messages : option (list Message);
  md_pagination : option PageInfo
}.

(** What the [#messages-content] element shows. *)
Inductive MessagesView :=
| ViewBlank
| ViewLoading
| ViewMessages (indicator : bool) (shown : list Message)
| ViewNoMessages
| ViewError (retryFor : string).

(** The part of [StateService] the page writes to. *)
Record StateService := {
  ss_conversations : list Conversation;
  ss_conversationStates : gmap string string;
  ss_error : option string
}.

(** Calls that leave the page object: kept in order of occurrence. *)
Inductive Effect :=
| RenderMessages (prepend : bool)
| ScrollToBottom
| NewMessageNotification (m : Message).

(** The fields of the [AgentsPage] instance, the message pane of its
    container and the state service.  The sidebar's DOM is not tracked. *)
Record Page := {
  filters : Filters;
  pagination : Cursor;
  messagesPagination : Cursor;
  loadedConversations : list Conversation;
  loadedMessages : gmap string (list Message);
  selectedConversationId : option string;
  messagesContent : option MessagesView;
  stateService : StateService;
  effects : list Effect
}.

(** Field updates. *)
Definition set_pagination (c : Cursor) (p : Page) : Page :=
  {| filters := filters p; pagination := c;
     messagesPagination := messagesPagination p;
     loadedConversations := loadedConversations p;
     loadedMessages := loadedMessages p;
     selectedConversationId := selectedConversationId p;
     messagesContent := messagesContent p;
     stateService := stateService p; effects := effects p |}.

Definition set_messagesPagination (c : Cursor) (p : Page) : Page :=
  {| filters := filters p; pagination := pagination p;
     messagesPagination := c;
     loadedConversations := loadedConversations p;
     loadedMessages := loadedMessages p;
     selectedConversationId := selectedConversationId p;
     messagesContent := messagesContent p;
     stateService := stateService p; effects := effects p |}.

Definition set_loadedConversations (l : list Conversation) (p : Page) : Page :=
  {| filters := filters p; pagination := pagination p;
     messagesPagination := messagesPagination p;
     loadedConversations := l;
     loadedMessages := loadedMessages p;
     selectedConversationId := selectedConversationId p;
     messagesContent := messagesContent p;
     stateService := stateService p; effects := effects p |}.

Definition set_loadedMessages (m : gmap string (list Message)) (p : Page) : Page :=
  {| filters := filters p; pagination := pagination p;
     messagesPagination := messagesPagination p;
     loadedConversations := loadedConversations p;
     loadedMessages := m;
     selectedConversationId := selectedConversationId p;
     messagesContent := messagesContent p;
     stateService := stateService p; effects := effects p |}.

Definition set_selectedConversationId (s : option string) (p : Page) : Page :=
  {| filters := filters p; pagination := pagination p;
     messagesPagination := messagesPagination p;
     loadedConversations := loadedConversations p;
     loadedMessages := loadedMessages p;
     selectedConversationId := s;
     messagesContent := messagesContent p;
     stateService := stateService p; effects := effects p |}.

Definition set_messagesContent (v : option MessagesView) (p : Page) : Page :=
  {| filters := filters p; pagination := pagination p;
     messagesPagination := messagesPagination p;
     loadedConversations := loadedConversations p;
     loadedMessages := loadedMessages p;
     selectedConversationId := selectedConversationId p;
     messagesContent := v;
     stateService := stateService p; effects := effects p |}.

Definition set_stateService (s : StateService) (p : Page) : Page :=
  {| filters := filters p; pagination := pagination p;
     messagesPagination := messagesPagination p;
     loadedConversations := loadedConversations p;
     loadedMessages := loadedMessages p;
     selectedConversationId := selectedConversationId p;
     messagesContent := messagesContent p;
     stateService := s; effects := effects p |}.

Definition emit (e : Effect) (p : Page) : Page :=
  {| filters := filters p; pagination := pagination p;
     messagesPagination := messagesPagination p;
     loadedConversations := loadedConversations p;
     loadedMessages := loadedMessages p;
     selectedConversationId := selectedConversationId p;
     messagesContent := messagesContent p;
     stateService := stateService p; effects := (effects p ++ [e])%list |}.

Definition set_isLoading (b : bool) (c : Cursor) : Cursor :=
  {| currentPage := currentPage c; limit := limit c; hasMore := hasMore c;
     isLoading := b; conversationId := conversationId c |}.

Definition set_progress (more : bool) (next : Z) (c : Cursor) : Cursor :=
  {| currentPage := next; limit := limit c; hasMore := more;
     isLoading := isLoading c; conversationId := conversationId c |}.

(** The object literal both reset sites assign. *)
Definition freshCursor (subject : option string) : Cursor :=
  {| currentPage := 0; limit := 10; hasMore := true; isLoading := false;
     conversationId := subject |}.

(** The page as the constructor leaves it, once [render] has put the message
    pane in place. *)
Definition initialPage : Page :=
  {| filters := {| status := "all"; timeRange := "7d"; search := "" |};
     pagination := freshCursor None;
     messagesPagination := freshCursor None;
     loadedConversations := [];
     loadedMessages := ∅;
     selectedConversationId := None;
     messagesContent := Some ViewBlank;
     stateService := {| ss_conversations := []; ss_conversationStates := ∅;
                        ss_error := None |};
     effects := [] |}.

(** ** AgentsPage: rendering helpers *)

(** [renderCachedMessages(messages, prepend)]: nothing happens without the
    pane; otherwise the pane shows [messages] with the loading indicator
    hidden.  Scroll position is not tracked. *)
Definition renderCachedMessages (msgs : list Message) (prepend : bool)
           (p : Page) : Page :=
  match messagesContent p with
  | None => p
  | Some _ =>
      emit (RenderMessages prepend)
           (set_messagesContent (Some (ViewMessages false msgs)) p)
  end.

(** [showMessagesLoadingIndicator(show)]: toggles the indicator element, which
    exists only inside a rendered message list. *)
Definition showMessagesLoadingIndicator (show : bool) (p : Page) : Page :=
  match messagesContent p with
  | Some (ViewMessages _ shown) =>
      set_messagesContent (Some (ViewMessages show shown)) p
  | _ => p
  end.

(** [messagesContent.innerHTML = ...] through the element captured at the top
    of [loadMoreMessages]. *)
Definition setInnerHTML (v : MessagesView) (p : Page) : Page :=
  match messagesContent p with
  | None => p
  | Some _ => set_messagesContent (Some v) p
  end.

(** [scrollToBottom()] *)
Definition scrollToBottom (p : Page) : Page :=
  match messagesContent p with
  | None => p
  | Some _ => emit ScrollToBottom p
  end.

(** [showNewMessageNotification(message, metadata)] *)
Definition showNewMessageNotification (m : Message) (p : Page) : Page :=
  emit (NewMessageNotification m) p.

(** ** AgentsPage.handleNewMessage *)

(** The predicate given to [existingMessages.some]:
    [msg.id === message.id || (msg.timestamp === message.timestamp &&
    msg.role === message.role)].  Two missing ids are [===]. *)
Definition sameMessage (message msg : Message) : bool :=
  (bool_decide (msg_id msg = msg_id message)
   || (String.eqb (timestamp msg) (timestamp message)
       && String.eqb (role msg) (role message)))%bool.

Definition handleNewMessage (cid : string) (message : Message) (p : Page)
  : Page :=
  if negb (bool_decide (selectedConversationId p = Some cid)) then p
  else
    let existingMessages := default [] (loadedMessages p !! cid) in
    let messageExists := existsb (sameMessage message) existingMessages in
    if negb messageExists then
      let updatedMessages := (existingMessages ++ [message])%list in
      showNewMessageNotification message
        (scrollToBottom
           (renderCachedMessages updatedMessages false
              (set_loadedMessages
                 (<[cid := updatedMessages]> (loadedMessages p)) p)))
    else p.

(** ** AgentsPage.loadMoreConversations / loadConversationsData *)

(** Locals alive across [await Promise.all([...])]: the arguments of
    [getConversationsPaginated]. *)
Record ConversationsAwait := {
  ca_page : Z;
  ca_limit : Z
}.

(** Synchronous part: the admission gate, then [isLoading = true] and the two
    requests. *)
Definition loadMoreConversations (p : Page) : Page * option ConversationsAwait :=
  if (isLoading (pagination p) || negb (hasMore (pagination p)))%bool then
    (p, None)
  else
    (set_pagination (set_isLoading true (pagination p)) p,
     Some {| ca_page := currentPage (pagination p);
             ca_limit := limit (pagination p) |}).

(** [stateService.updateConversations], [updateConversationStates],
    [setError]. *)
Definition updateConversations (l : list Conversation) (s : StateService) :=
  {| ss_conversations := l; ss_conversationStates := ss_conversationStates s;
     ss_error := ss_error s |}.

Definition updateConversationStates (m : gmap string string) (s : StateService) :=
  {| ss_conversations := ss_conversations s; ss_conversationStates := m;
     ss_error := ss_error s |}.

Definition setError (e : string) (s : StateService) :=
  {| ss_conversations := ss_conversations s;
     ss_conversationStates := ss_conversationStates s;
     ss_error := Some e |}.

(** Continuation: the [try] body after the [await], the [catch] block and the
    [finally] block.  [Promise.all] rejects as soon as one of the two requests
    does. *)
Definition loadMoreConversations_settled
           (r : DataService.Settled (ConversationsData * StatesData))
           (p : Page) : Page :=
  let p1 :=
    match r with
    | DataService.Returned (conversationsData, statesData) =>
        let info := cd_pagination conversationsData in
        let p2 := set_pagination
                    (set_progress (pi_hasMore info) (page info + 1)
                                  (pagination p)) p in
        let newConversations := conversations conversationsData in
        let p3 := set_loadedConversations
                    (loadedConversations p2 ++ newConversations)%list p2 in
        let activeStates := default ∅ statesData in
        set_stateService
          (updateConversationStates activeStates
             (updateConversations (loadedConversations p3) (stateService p3)))
          p3
    | DataService.Raised _ =>
        set_stateService
          (setError "Failed to load more conversations" (stateService p)) p
    end in
  set_pagination (set_isLoading false (pagination p1)) p1.

(** [loadConversationsData]: reset the cursor and both caches, then load the
    first page. *)
Definition loadConversationsData (p : Page) : Page * option ConversationsAwait :=
  loadMoreConversations
    (set_loadedMessages ∅
       (set_loadedConversations []
          (set_pagination (freshCursor None) p))).

(** ** AgentsPage.loadMoreMessages / loadConversationMessages / selectConversation *)

(** Locals alive across [await this.dataService.cachedFetch(url)]: the two
    parameters, and the page and limit the URL was built from. *)
Record MessagesAwait := {
  ma_conversationId : string;
  ma_isInitialLoad : bool;
  ma_page : Z;
  ma_limit : Z
}.

(** The endpoint the request goes to. *)
Definition messagesEndpoint (k : MessagesAwait) : string :=
  "/api/conversations/" ++ ma_conversationId k ++ "/messages?page="
    ++ Js.ofZ (ma_page k) ++ "&limit=" ++ Js.ofZ (ma_limit k).

(** Synchronous part: pane guard, admission gate, subject check, then
    [isLoading = true], the loading display and the request. *)
Definition loadMoreMessages (cid : string) (isInitialLoad : bool) (p : Page)
  : Page * option MessagesAwait :=
  match messagesContent p with
  | None => (p, None)
  | Some _ =>
      let c := messagesPagination p in
      if (isLoading c || negb (hasMore c))%bool then (p, None)
      else if negb (bool_decide (conversationId c = Some cid)) then (p, None)
      else
        let p1 := set_messagesPagination (set_isLoading true c) p in
        let p2 := if isInitialLoad then setInnerHTML ViewLoading p1
                  else showMessagesLoadingIndicator true p1 in
        (p2, Some {| ma_conversationId := cid;
                     ma_isInitialLoad := isInitialLoad;
                     ma_page := currentPage c;
                     ma_limit := limit c |})
  end.

(** Continuation: the [try] body after the [await], the [catch] block and the
    [finally] block.  A [null] body is [Returned None]. *)
Definition loadMoreMessages_settled (k : MessagesAwait)
           (r : DataService.Settled (option MessagesData)) (p : Page) : Page :=
  let cid := ma_conversationId k in
  let isInitialLoad := ma_isInitialLoad k in
  let missing :=
    if isInitialLoad then setInnerHTML ViewNoMessages p else p in
  let p1 :=
    match r with
    | DataService.Returned (Some messagesData) =>
        match messages messagesData with
        | Some fetched =>
            let c :=
              match md_pagination messagesData with
              | Some info =>
                  set_progress (pi_hasMore info) (page info + 1)
                               (messagesPagination p)
              | None => set_progress false 1 (messagesPagination p)
              end in
            let p2 := set_messagesPagination c p in
            let existingMessages := default [] (loadedMessages p2 !! cid) in
            let merged :=
              if isInitialLoad then fetched
              else (fetched ++ existingMessages)%list in
            renderCachedMessages merged (negb isInitialLoad)
              (set_loadedMessages (<[cid := merged]> (loadedMessages p2)) p2)
        | None => missing
        end
    | DataService.Returned None => missing
    | DataService.Raised _ =>
        if isInitialLoad then setInnerHTML (ViewError cid) p else p
    end in
  let p3 := set_messagesPagination
              (set_isLoading false (messagesPagination p1)) p1 in
  if isInitialLoad then p3 else showMessagesLoadingIndicator false p3.

(** [loadConversationMessages(conversationId)] *)
Definition loadConversationMessages (cid : string) (p : Page)
  : Page * option MessagesAwait :=
  let p1 := set_messagesPagination (freshCursor (Some cid)) p in
  let p2 := set_loadedMessages (delete cid (loadedMessages p1)) p1 in
  loadMoreMessages cid true p2.

(** [selectConversation(conversationId)]; the sidebar highlight and the state
    banner it updates are not tracked. *)
Definition selectConversation (cid : string) (p : Page)
  : Page * option MessagesAwait :=
  loadConversationMessages cid (set_selectedConversationId (Some cid) p).

(** ** AgentsPage.filterConversations *)

(** The two arrays of [getStateCategory]. *)
Definition activeStates : list string :=
  ["Claude Code working..."; "Awaiting user input..."; "User typing...";
   "Awaiting response..."; "Recently active"].






(** ** The event loop around the page *)

(** The page together with the requests that have been issued and have not
    settled yet, oldest first. *)
Record World := {
  here : Page;
  messageFetches : list MessagesAwait;
  conversationFetches : list ConversationsAwait
}.

(** What the browser can deliver to the page in one turn: a click on a sidebar
    item, the retry button of the message pane, the two scroll listeners, a
    full reload, a push message, and the settling of a pending request. *)
Inductive Event :=
| OnClick (cid : string)
| OnRetry (cid : string)
| OnScrollTop (cid : string)
| OnScrollBottom
| OnReload
| OnPush (cid : string) (m : Message)
| OnMessages (i : nat) (r : DataService.Settled (option MessagesData))
| OnConversations (i : nat)
                  (r : DataService.Settled (ConversationsData * StatesData)).

Definition issue {A} (k : option A) (l : list A) : list A :=
  match k with
  | Some a => (l ++ [a])%list
  | None => l
  end.

Definition withMessages (w : World) (r : Page * option MessagesAwait) : World :=
  {| here := r.1;
     messageFetches := issue r.2 (messageFetches w);
     conversationFetches := conversationFetches w |}.

Definition withConversations (w : World) (r : Page * option ConversationsAwait)
  : World :=
  {| here := r.1;
     messageFetches := messageFetches w;
     conversationFetches := issue r.2 (conversationFetches w) |}.

(** One turn.  [None] when the event names a request that is not pending. *)
Definition step (e : Event) (w : World) : option World :=
  match e with
  | OnClick cid => Some (withMessages w (selectConversation cid (here w)))
  | OnRetry cid => Some (withMessages w (loadConversationMessages cid (here w)))
  | OnScrollTop cid => Some (withMessages w (loadMoreMessages cid false (here w)))
  | OnScrollBottom => Some (withConversations w (loadMoreConversations (here w)))
  | OnReload => Some (withConversations w (loadConversationsData (here w)))
  | OnPush cid m =>
      Some {| here := handleNewMessage cid m (here w);
              messageFetches := messageFetches w;
              conversationFetches := conversationFetches w |}
  | OnMessages i r =>
      match messageFetches w !! i with
      | Some k =>
          Some {| here := loadMoreMessages_settled k r (here w);
                  messageFetches := delete i (messageFetches w);
                  conversationFetches := conversationFetches w |}
      | None => None
      end
  | OnConversations i r =>
      match conversationFetches w !! i with
      | Some _ =>
          Some {| here := loadMoreConversations_settled r (here w);
                  messageFetches := messageFetches w;
                  conversationFetches := delete i (conversationFetches w) |}
      | None => None
      end
  end.

Fixpoint run (es : list Event) (w : World) : option World :=
  match es with
  | [] => Some w
  | e :: es' =>
      match step e w with
      | Some w' => run es' w'
      | None => None
      end
  end.

Definition initialWorld : World :=
  {| here := initialPage; messageFetches := []; conversationFetches := [] |}.

End AgentsPage.

(** ** Concrete requests and pages used in the examples below *)

Module Samples.
Import DataService AgentsPage.

(** The first conversation page, as [getConversationsPaginated] asks for it
    while the real-time channel is up (30 s window) and while it is down
    (5 s window). *)
Definition conversationsEndpoint : string := "/api/conversations?page=0&limit=10".
Definition realtimeOptions : Options := {| cacheDuration := Some 30000 |}.
Definition pollingOptions : Options := {| cacheDuration := Some 5000 |}.

(** A cache holding the body received under the real-time options; bodies are
    stood for by numbers. *)
Definition realtimeCache : gmap string (CacheEntry nat) :=
  {[ cacheKey conversationsEndpoint realtimeOptions :=
       {| DataService.data := 7%nat; DataService.timestamp := 1000 |} ]}.

(** Messages of two conversations, [A] and [B]. *)
Definition message (id : option string) (r : string) (t : string) : Message :=
  {| msg_id := id; role := r; AgentsPage.timestamp := t; content := "..." |}.

Definition a1 : Message := message (Some "a1") "user" "2025-01-01T10:00:00Z".
Definition a2 : Message := message (Some "a2") "assistant" "2025-01-01T10:00:05Z".
Definition a3 : Message := message (Some "a3") "user" "2025-01-01T10:01:00Z".
Definition a4 : Message := message (Some "a4") "assistant" "2025-01-01T10:01:07Z".
Definition a5 : Message := message (Some "a5") "user" "2025-01-01T10:02:00Z".
Definition a6 : Message := message (Some "a6") "assistant" "2025-01-01T10:02:09Z".
Definition b1 : Message := message (Some "b1") "user" "2025-01-02T08:00:00Z".

(** A message page with pagination metadata, and one without. *)
Definition messagePage (l : list Message) (n : Z) (more : bool)
  : DataService.Settled (option MessagesData) :=
  DataService.Returned
    (Some {| messages := Some l;
             md_pagination := Some {| page := n; pi_hasMore := more;
                                      totalCount := 0 |} |}).

Definition barePage (l : list Message)
  : DataService.Settled (option MessagesData) :=
  DataService.Returned (Some {| messages := Some l; md_pagination := None |}).

(** Conversation [A] selected and its only page of five messages loaded. *)
Definition selectedA : list Event :=
  [OnClick "A"; OnMessages 0 (messagePage [a1; a2; a3; a4; a5] 0 false)].

Definition worldA : World := default initialWorld (run selectedA initialWorld).

(** The user clicks [A] and, before its messages arrive, clicks [B]. *)
Definition switched : list Event := [OnClick "A"; OnClick "B"].

Definition worldSwitched : World :=
  default initialWorld (run switched initialWorld).

(** ... and then the page requested for [A] arrives. *)
Definition stalePage : DataService.Settled (option MessagesData) :=
  messagePage [a1; a2; a3; a4; a5] 0 false.

Definition worldStale : World :=
  default initialWorld (run (switched ++ [OnMessages 0 stalePage]) initialWorld).

(** The user clicks [A] twice in a row, before its messages arrive. *)
Definition doubleClick : list Event := [OnClick "A"; OnClick "A"].

Definition worldDoubleClick : World :=
  default initialWorld (run doubleClick initialWorld).

(** ... the first request is answered with a bare list of messages, the
    second with a page that announces more, and the user scrolls up. *)
Definition bareThenPaged : list Event :=
  [OnMessages 0 (messagePage [a1] 0 true); OnScrollTop "A"].

Definition worldBareThenPaged : World :=
  default initialWorld
    (run (doubleClick ++ [OnMessages 0 (barePage [a1])] ++ bareThenPaged)
         initialWorld).

(** First load, a scroll of the sidebar while it is pending, a click on [A]
    and a scroll of the message pane while its messages are pending. *)
Definition impatient : list Event :=
  [OnReload; OnScrollBottom; OnClick "A"; OnScrollTop "A"].

Definition worldImpatient : World :=
  default initialWorld (run impatient initialWorld).

(** [A] is selected, its newest page has arrived with more to come, and the
    user has scrolled to the top of the pane. *)
Definition scrolledUp : list Event :=
  [OnClick "A"; OnMessages 0 (messagePage [a4; a5] 0 true); OnScrollTop "A"].

Definition worldScrolledUp : World :=
  default initialWorld (run scrolledUp initialWorld).

Definition olderAwait : MessagesAwait :=
  {| ma_conversationId := "A"; ma_isInitialLoad := false;
     ma_page := 1; ma_limit := 10 |}.

(** The page just before [loadConversationMessages] calls
    [loadMoreMessages("A", true)]. *)
Definition readyA : Page :=
  set_messagesPagination (freshCursor (Some "A"))
    (set_selectedConversationId (Some "A") initialPage).

(** Conversations, and conversation pages as the server sends them. *)
Definition conversation (id : string) : Conversation :=
  {| conv_id := id; title := None; project := None; lastMessage := None;
     lastModified := Some 0; messageCount := 0 |}.

Definition firstTen : list Conversation :=
  conversation <$> ["c0"; "c1"; "c2"; "c3"; "c4"; "c5"; "c6"; "c7"; "c8"; "c9"].

Definition nextSeven : list Conversation :=
  conversation <$> ["c10"; "c11"; "c12"; "c13"; "c14"; "c15"; "c16"].









Definition conversationPage (l : list Conversation) (n : Z) (more : bool)
  : DataService.Settled (ConversationsData * StatesData) :=
  DataService.Returned
    ({| conversations := l;
        cd_pagination := {| page := n; pi_hasMore := more;
                            totalCount := 17 |} |},
     None).

End Samples.

(** The fallback of [cachedFetch] read per endpoint: whenever the request
    fails and the cache holds a body obtained from that endpoint, under
    whatever options, the call returns instead of raising. *)
Definition fallback_per_endpoint : Prop :=
  forall (endpoint : string) (o : DataService.Options) (now : Z)
         (net : DataService.Network nat)
         (cache : gmap string (DataService.CacheEntry nat)),
    DataService.networkFailed net = true ->
    (exists o' entry, cache !! DataService.cacheKey endpoint o' = Some entry) ->
    exists d, (DataService.cachedFetch_run endpoint o now net cache).1
              = DataService.Returned d.

(** ** Observations and the wording of the specification *)

Module Spec.
Import AgentsPage.

(** [MessageStore.get]: the cached sequence of a conversation, empty when the
    map has no entry. *)
Definition cached (cid : string) (p : Page) : list Message :=
  default [] (loadedMessages p !! cid).

(** "matches by [id] or by the pair [(timestamp, role)]" *)
Definition matches (message msg : Message) : Prop :=
  msg_id msg = msg_id message
  \/ (timestamp msg = timestamp message /\ role msg = role message).

(** No cached message of the conversation matches the incoming one. *)
Definition unseen (cid : string) (message : Message) (p : Page) : Prop :=
  forall msg, In msg (cached cid p) -> ~ matches message msg.













End Spec.

(** ** Notions about runs of the event loop *)

Module Runs.
Import AgentsPage.

(** The events that assign a fresh cursor object. *)
Definition resetsMessages (e : Event) : bool :=
  match e with
  | OnClick _ | OnRetry _ => true
  | _ => false
  end.

Definition resetsConversations (e : Event) : bool :=
  match e with
  | OnReload => true
  | _ => false
  end.

(** Each cursor's [isLoading] flag tells whether a request of that cursor is
    pending, and there is never more than one. *)
Definition balanced (c : Cursor) {A} (pending : list A) : Prop :=
  (isLoading c = true /\ length pending = 1%nat)
  \/ (isLoading c = false /\ pending = []).

Definition inStep (w : World) : Prop :=
  balanced (messagesPagination (here w)) (messageFetches w)
  /\ balanced (pagination (here w)) (conversationFetches w).

(** "at most one fetch per cursor is in flight" *)
Definition oneFetchPerCursor (w : World) : Prop :=
  (length (messageFetches w) <= 1)%nat
  /\ (length (conversationFetches w) <= 1)%nat.

(** A run in which no cursor is reset while a request of it is pending. *)
Fixpoint calm (es : list Event) (w : World) : Prop :=
  match es with
  | [] => True
  | e :: es' =>
      (resetsMessages e = true -> messageFetches w = [])
      /\ (resetsConversations e = true -> conversationFetches w = [])
      /\ match step e w with
         | Some w' => calm es' w'
         | None => True
         end
  end.

(** "at most one fetch per cursor is ever in flight", over all runs from the
    freshly constructed page. *)
Definition everOneFetchPerCursor : Prop :=
  forall (es : list Event) (w : World),
    run es initialWorld = Some w -> oneFetchPerCursor w.

(** "a message page without pagination metadata leaves [hasMore] false
    until the cursor is reset", over all runs from the freshly constructed
    page. *)
Definition barePageIsTerminal : Prop :=
  forall (before after : list Event) (w w1 w2 : World) (i : nat)
         (fetched : list Message),
    run before initialWorld = Some w ->
    step (OnMessages i
            (DataService.Returned
               (Some {| messages := Some fetched; md_pagination := None |})))
         w = Some w1 ->
    Forall (fun e => resetsMessages e = false) after ->
    run after w1 = Some w2 ->
    hasMore (messagesPagination (here w2)) = false.

End Runs.

(** "every successful conversation-page load advances the cursor page by
    one", whatever the response says. *)
Definition pageAdvancesByOne : Prop :=
  forall (p p1 : AgentsPage.Page) (k : AgentsPage.ConversationsAwait)
         (cd : AgentsPage.ConversationsData) (sd : AgentsPage.StatesData),
    AgentsPage.loadMoreConversations p = (p1, Some k) ->
    AgentsPage.currentPage
      (AgentsPage.pagination
         (AgentsPage.loadMoreConversations_settled
            (DataService.Returned (cd, sd)) p1))
    = AgentsPage.currentPage (AgentsPage.pagination p) + 1.

(** ** The stages of the filter *)

Module Stages.
Import AgentsPage.




End Stages.

(** * Properties *)

Import AgentsPage Spec Runs Stages.

(** ** DataService.cachedFetch: fallback to the cache on failure *)

Section CachedFetchFacts.
Import DataService.
Context {D : Type}.
Implicit Types (cache : gmap string (CacheEntry D)) (net : Network D).

Lemma cachedFetch_settled_failed_hit k net cache cached :
  networkFailed net = true ->
  cache !! aw_cacheKey k = Some cached ->
  cachedFetch_settled k net cache = (Returned (data cached), cache).
Proof.
  intros Hfail Hhit. unfold cachedFetch_settled.
  destruct net; try discriminate; by rewrite Hhit.
Qed.

Lemma cachedFetch_settled_failed_miss k net cache :
  networkFailed net = true ->
  cache !! aw_cacheKey k = None ->
  cachedFetch_settled k net cache = (Raised (errorOf net), cache).
Proof.
  intros Hfail Hmiss. unfold cachedFetch_settled.
  destruct net; try discriminate; by rewrite Hmiss.
Qed.

Lemma cachedFetch_awaits_own_key endpoint o now cache k :
  cachedFetch endpoint o now cache = inr k ->
  aw_cacheKey k = cacheKey endpoint o.
Proof.
  unfold cachedFetch. destruct (cache !! cacheKey endpoint o) as [c|].
  - destruct (now - timestamp c <? effectiveDuration o)%Z; [discriminate|].
    by intros [= <-].
  - by intros [= <-].
Qed.

End CachedFetchFacts.

(** C10 (as amended): when the request fails, [cachedFetch] returns the body
    cached under the same endpoint and the same options, however old that
    entry is, and leaves the cache as it was; it raises the error exactly when
    the cache has no entry under that endpoint-and-options key.  The entry
    looked up is the one present when the failure is handled. *)
Theorem cachedFetch_falls_back_to_cache :
  forall (D : Type) (endpoint : string) (o : DataService.Options) (now : Z)
         (net : DataService.Network D)
         (cache : gmap string (DataService.CacheEntry D)),
    DataService.networkFailed net = true ->
    let key := DataService.cacheKey endpoint o in
    let result := DataService.cachedFetch_run endpoint o now net cache in
    (forall cached, cache !! key = Some cached ->
                    result = (DataService.Returned (DataService.data cached), cache))
    /\ (cache !! key = None ->
        result = (DataService.Raised (DataService.errorOf net), cache))
    /\ ((exists e, result.1 = DataService.Raised e) <-> cache !! key = None)
    /\ (forall (k : DataService.Awaiting)
                (later : gmap string (DataService.CacheEntry D)),
           DataService.cachedFetch endpoint o now cache = inr k ->
           match later !! key with
           | Some cached =>
               DataService.cachedFetch_settled k net later
               = (DataService.Returned (DataService.data cached), later)
           | None =>
               DataService.cachedFetch_settled k net later
               = (DataService.Raised (DataService.errorOf net), later)
           end).
Proof.
  intros D endpoint o now net cache Hfail key result.
  assert (Hhit : forall cached, cache !! key = Some cached ->
            result = (DataService.Returned (DataService.data cached), cache)).
  { intros cached Hc. subst result. unfold DataService.cachedFetch_run.
    destruct (DataService.cachedFetch endpoint o now cache) as [d|k] eqn:E.
    - unfold DataService.cachedFetch in E. fold key in E. rewrite Hc in E.
      destruct (_ <? _)%Z; [|discriminate]. by injection E as <-.
    - apply cachedFetch_settled_failed_hit; [done|].
      by rewrite (cachedFetch_awaits_own_key _ _ _ _ _ E). }
  assert (Hmiss : cache !! key = None ->
            result = (DataService.Raised (DataService.errorOf net), cache)).
  { intros Hc. subst result. unfold DataService.cachedFetch_run.
    destruct (DataService.cachedFetch endpoint o now cache) as [d|k] eqn:E.
    - unfold DataService.cachedFetch in E. fold key in E. by rewrite Hc in E.
    - apply cachedFetch_settled_failed_miss; [done|].
      by rewrite (cachedFetch_awaits_own_key _ _ _ _ _ E). }
  split; [exact Hhit|]. split; [exact Hmiss|]. split; [split|].
  - intros [e He]. destruct (cache !! key) as [c|] eqn:Hc; [|done].
    rewrite (Hhit c eq_refl) in He. discriminate.
  - intros Hc. rewrite (Hmiss Hc). by eexists.
  - intros k later Hk.
    pose proof (cachedFetch_awaits_own_key _ _ _ _ _ Hk) as Hkey.
    fold key in Hkey. destruct (later !! key) as [c|] eqn:Hc.
    + apply cachedFetch_settled_failed_hit; [done|]. by rewrite Hkey.
    + apply cachedFetch_settled_failed_miss; [done|]. by rewrite Hkey.
Qed.

(** The entry is 39 s old against a 30 s window, so the call goes to the
    network (a healthy server would have answered with a new body); the
    server answers 503 and the stale body is returned. *)
Lemma cachedFetch_falls_back_to_cache_witness :
  DataService.networkFailed (D:=nat) (DataService.NetStatus 503) = true
  /\ DataService.cachedFetch Samples.conversationsEndpoint
       Samples.realtimeOptions 40000 Samples.realtimeCache
     = inr {| DataService.aw_cacheKey :=
                DataService.cacheKey Samples.conversationsEndpoint
                                     Samples.realtimeOptions;
              DataService.aw_now := 40000 |}
  /\ (DataService.cachedFetch_run Samples.conversationsEndpoint
        Samples.realtimeOptions 40000 (DataService.NetOk 8%nat)
        Samples.realtimeCache).1
     = DataService.Returned 8%nat
  /\ (DataService.cachedFetch_run Samples.conversationsEndpoint
        Samples.realtimeOptions 40000 (DataService.NetStatus 503)
        Samples.realtimeCache).1
     = DataService.Returned 7%nat.
Proof.
  split; [reflexivity|].
  split; [vm_compute; reflexivity|].
  split; [vm_compute; reflexivity|].
  pose proof (cachedFetch_falls_back_to_cache nat Samples.conversationsEndpoint
                Samples.realtimeOptions 40000 (DataService.NetStatus 503)
                Samples.realtimeCache eq_refl) as (Hhit & _).
  rewrite (Hhit {| DataService.data := 7%nat; DataService.timestamp := 1000 |}).
  - reflexivity.
  - vm_compute. reflexivity.
Defined.

(** C10 (as stated) fails: the body of the first conversation page was cached
    while the real-time channel was up; the same endpoint requested with the
    polling options, against a server that is down, raises the error. *)
Lemma cachedFetch_other_options_raises : ~ fallback_per_endpoint.
Proof.
  intros H.
  destruct (H Samples.conversationsEndpoint Samples.pollingOptions 30000
              (DataService.NetThrows "Failed to fetch") Samples.realtimeCache
              eq_refl) as [d Hd].
  - exists Samples.realtimeOptions. eexists. vm_compute. reflexivity.
  - vm_compute in Hd. discriminate.
Qed.

(** ** handleNewMessage *)

Lemma sameMessage_matches message msg :
  sameMessage message msg = true <-> matches message msg.
Proof.
  unfold sameMessage, matches.
  rewrite orb_true_iff, andb_true_iff, bool_decide_eq_true, !String.eqb_eq.
  tauto.
Qed.

Lemma messageExists_unseen cid message p :
  existsb (sameMessage message) (cached cid p) = false <-> unseen cid message p.
Proof.
  unfold unseen. split.
  - intros Hex msg Hin Hm.
    assert (existsb (sameMessage message) (cached cid p) = true) as Ht.
    { apply existsb_exists. exists msg. split; [done|].
      by apply sameMessage_matches. }
    congruence.
  - intros Hun. apply not_true_is_false. intros Ht.
    apply existsb_exists in Ht as (msg & Hin & Hm).
    apply (Hun msg Hin). by apply sameMessage_matches.
Qed.

Lemma cached_renderCachedMessages cid msgs b p :
  cached cid (renderCachedMessages msgs b p) = cached cid p.
Proof. unfold renderCachedMessages. by destruct (messagesContent p). Qed.

Lemma cached_scrollToBottom cid p : cached cid (scrollToBottom p) = cached cid p.
Proof. unfold scrollToBottom. by destruct (messagesContent p). Qed.

Lemma selected_renderCachedMessages msgs b p :
  selectedConversationId (renderCachedMessages msgs b p)
  = selectedConversationId p.
Proof. unfold renderCachedMessages. by destruct (messagesContent p). Qed.

Lemma selected_scrollToBottom p :
  selectedConversationId (scrollToBottom p) = selectedConversationId p.
Proof. unfold scrollToBottom. by destruct (messagesContent p). Qed.

(** The handler on the selected conversation, fresh message. *)
Lemma handleNewMessage_fresh cid message p :
  selectedConversationId p = Some cid ->
  unseen cid message p ->
  cached cid (handleNewMessage cid message p) = (cached cid p ++ [message])%list
  /\ selectedConversationId (handleNewMessage cid message p) = Some cid.
Proof.
  intros Hsel Hun. apply messageExists_unseen in Hun.
  unfold handleNewMessage. rewrite bool_decide_eq_true_2 by done. simpl.
  fold (cached cid p). rewrite Hun. simpl.
  unfold showNewMessageNotification.
  split.
  - unfold cached at 1. simpl. fold (cached cid (scrollToBottom
      (renderCachedMessages (cached cid p ++ [message])%list false
         (set_loadedMessages (<[cid:=(cached cid p ++ [message])%list]>
            (loadedMessages p)) p)))).
    rewrite cached_scrollToBottom, cached_renderCachedMessages.
    unfold cached at 1. simpl. by rewrite lookup_insert_eq.
  - simpl. by rewrite selected_scrollToBottom, selected_renderCachedMessages.
Qed.

(** The handler leaves the page alone when the conversation is not the
    selected one or the message is already there. *)
Lemma handleNewMessage_skip cid message p :
  selectedConversationId p <> Some cid \/ ~ unseen cid message p ->
  handleNewMessage cid message p = p.
Proof.
  intros H. unfold handleNewMessage.
  destruct (bool_decide (selectedConversationId p = Some cid)) eqn:Hsel; [|done].
  simpl. apply bool_decide_eq_true in Hsel.
  destruct H as [H|H]; [done|].
  fold (cached cid p).
  destruct (existsb (sameMessage message) (cached cid p)) eqn:Hex; [done|].
  by apply messageExists_unseen in Hex.
Qed.

(** C1: the new-message handler appends the pushed message to the cached list
    of its conversation only if no cached message of that conversation matches
    it by [id] or by [(timestamp, role)] (and otherwise leaves the page as it
    is); a message delivered to the selected conversation and then delivered
    again under the same id grows the list by one and then by nothing. *)
Theorem handleNewMessage_appends_unique :
  forall (cid : string) (message : Message) (p : Page),
    let p1 := handleNewMessage cid message p in
    (cached cid p1 = (cached cid p ++ [message])%list \/ p1 = p)
    /\ (cached cid p1 <> cached cid p ->
        selectedConversationId p = Some cid /\ unseen cid message p)
    /\ (selectedConversationId p = Some cid ->
        unseen cid message p ->
        forall again : Message,
          msg_id again = msg_id message ->
          let p2 := handleNewMessage cid again p1 in
          length (cached cid p1) = S (length (cached cid p))
          /\ length (cached cid p2) = length (cached cid p1)
          /\ p2 = p1).
Proof.
  intros cid message p p1. subst p1.
  destruct (decide (selectedConversationId p = Some cid)) as [Hsel|Hsel].
  - destruct (existsb (sameMessage message) (cached cid p)) eqn:Hex.
    + assert (~ unseen cid message p) as Hseen.
      { intros Hun. apply messageExists_unseen in Hun. congruence. }
      rewrite (handleNewMessage_skip cid message p) by auto.
      split; [by right|]. split; [done|]. intros _ Hun. done.
    + apply messageExists_unseen in Hex.
      destruct (handleNewMessage_fresh cid message p Hsel Hex) as [Hc Hs].
      split; [by left|]. split; [done|].
      intros _ _ again Hid.
      assert (handleNewMessage cid again (handleNewMessage cid message p)
              = handleNewMessage cid message p) as Hagain.
      { apply handleNewMessage_skip. right. intros Hun.
        apply (Hun message).
        - rewrite Hc. apply in_or_app. right. by left.
        - left. done. }
      simpl. rewrite Hagain. split; [|done].
      rewrite Hc, length_app. simpl. lia.
  - rewrite (handleNewMessage_skip cid message p) by auto.
    split; [by right|]. split; [done|]. intros Hs. done.
Qed.

(** Conversation [A] is selected and holds five messages; [a6] arrives twice. *)
Lemma handleNewMessage_appends_unique_witness :
  let p1 := handleNewMessage "A" Samples.a6 (here Samples.worldA) in
  let p2 := handleNewMessage "A" Samples.a6 p1 in
  length (cached "A" (here Samples.worldA)) = 5%nat
  /\ length (cached "A" p1) = 6%nat
  /\ length (cached "A" p2) = 6%nat.
Proof.
  intros p1 p2.
  destruct (handleNewMessage_appends_unique "A" Samples.a6 (here Samples.worldA))
    as (_ & _ & Htwice).
  destruct (Htwice eq_refl) with (again := Samples.a6) as (H1 & H2 & _).
  - apply messageExists_unseen. vm_compute. reflexivity.
  - reflexivity.
  - split; [vm_compute; reflexivity|]. split.
    + subst p1. rewrite H1. vm_compute. reflexivity.
    + subst p2 p1. rewrite H2, H1. vm_compute. reflexivity.
Defined.

(** C3: a pushed message for a conversation other than the selected one leaves
    the whole page as it was: no cached list is created or changed, nothing is
    rendered and no request is issued. *)
Theorem handleNewMessage_ignores_unselected :
  forall (cid : string) (message : Message) (w : World),
    selectedConversationId (here w) <> Some cid ->
    handleNewMessage cid message (here w) = here w
    /\ step (OnPush cid message) w = Some w
    /\ (forall other,
          loadedMessages (handleNewMessage cid message (here w)) !! other
          = loadedMessages (here w) !! other).
Proof.
  intros cid message w Hsel.
  assert (handleNewMessage cid message (here w) = here w) as Heq
      by (apply handleNewMessage_skip; auto).
  split; [done|]. split.
  - simpl. rewrite Heq. by destruct w.
  - intros other. by rewrite Heq.
Qed.

(** [A] is selected with five messages loaded; a message for [B] arrives. *)
Lemma handleNewMessage_ignores_unselected_witness :
  let p := handleNewMessage "B" Samples.b1 (here Samples.worldA) in
  selectedConversationId (here Samples.worldA) = Some "A"
  /\ p = here Samples.worldA
  /\ loadedMessages p !! "B" = None
  /\ length (cached "A" p) = 5%nat.
Proof.
  intros p. subst p.
  destruct (handleNewMessage_ignores_unselected "B" Samples.b1 Samples.worldA)
    as (Heq & _ & _).
  - vm_compute. discriminate.
  - rewrite Heq. repeat split; vm_compute; reflexivity.
Defined.

(** ** The admission gate of the two cursors *)

Lemma loadMoreConversations_gate p :
  isLoading (pagination p) = true \/ hasMore (pagination p) = false ->
  loadMoreConversations p = (p, None).
Proof.
  intros [H|H]; unfold loadMoreConversations; rewrite H; [done|].
  by rewrite orb_true_r.
Qed.

Lemma loadMoreMessages_gate cid initial p :
  isLoading (messagesPagination p) = true
  \/ hasMore (messagesPagination p) = false ->
  loadMoreMessages cid initial p = (p, None).
Proof.
  intros H. unfold loadMoreMessages. destruct (messagesContent p); [|done].
  destruct H as [H|H]; rewrite H; [done|]. by rewrite orb_true_r.
Qed.

(** What a load attempt does to the cursors: nothing, or it raises
    [isLoading] from false and issues exactly one request. *)
Lemma loadMoreMessages_cases cid initial p :
  (loadMoreMessages cid initial p = (p, None))
  \/ (exists k,
        (loadMoreMessages cid initial p).2 = Some k
        /\ isLoading (messagesPagination p) = false
        /\ hasMore (messagesPagination p) = true
        /\ messagesPagination (loadMoreMessages cid initial p).1
           = set_isLoading true (messagesPagination p)
        /\ pagination (loadMoreMessages cid initial p).1 = pagination p
        /\ loadedMessages (loadMoreMessages cid initial p).1 = loadedMessages p
        /\ loadedConversations (loadMoreMessages cid initial p).1
           = loadedConversations p
        /\ k = {| ma_conversationId := cid; ma_isInitialLoad := initial;
                  ma_page := currentPage (messagesPagination p);
                  ma_limit := limit (messagesPagination p) |}).
Proof.
  unfold loadMoreMessages.
  destruct (messagesContent p) as [v|] eqn:Hv; [|by left].
  destruct (isLoading (messagesPagination p)) eqn:Hl; [by left|].
  destruct (hasMore (messagesPagination p)) eqn:Hm; [|by left].
  simpl.
  destruct (bool_decide (conversationId (messagesPagination p) = Some cid));
    [|by left].
  right. simpl. eexists. split; [done|].
  destruct initial; simpl.
  - unfold setInnerHTML. simpl. rewrite Hv. simpl. done.
  - unfold showMessagesLoadingIndicator. simpl. rewrite Hv.
    destruct v; simpl; done.
Qed.

Lemma loadMoreConversations_cases p :
  (loadMoreConversations p = (p, None))
  \/ (isLoading (pagination p) = false
      /\ hasMore (pagination p) = true
      /\ loadMoreConversations p
         = (set_pagination (set_isLoading true (pagination p)) p,
            Some {| ca_page := currentPage (pagination p);
                    ca_limit := limit (pagination p) |})).
Proof.
  unfold loadMoreConversations.
  destruct (isLoading (pagination p)); [by left|].
  destruct (hasMore (pagination p)); [|by left]. by right.
Qed.

(** ** How each handler treats the two cursors *)

Ltac pane_cases :=
  unfold renderCachedMessages, setInnerHTML, showMessagesLoadingIndicator,
    scrollToBottom, showNewMessageNotification;
  repeat match goal with
         | |- context [match messagesContent ?p with _ => _ end] =>
             destruct (messagesContent p) as [[]|] eqn:?; simpl
         | |- context [match ?v with ViewBlank => _ | _ => _ end] =>
             destruct v; simpl
         end.

Lemma handleNewMessage_cursors cid message p :
  pagination (handleNewMessage cid message p) = pagination p
  /\ messagesPagination (handleNewMessage cid message p) = messagesPagination p.
Proof.
  unfold handleNewMessage.
  destruct (negb (bool_decide (selectedConversationId p = Some cid))); [done|].
  destruct (negb (existsb _ _)); [|done].
  pane_cases; done.
Qed.

Lemma loadMoreMessages_settled_cursors k r p :
  isLoading (messagesPagination (loadMoreMessages_settled k r p)) = false
  /\ pagination (loadMoreMessages_settled k r p) = pagination p.
Proof.
  unfold loadMoreMessages_settled.
  destruct r as [[[[fetched|] [info|]]|]|e], (ma_isInitialLoad k); simpl;
    pane_cases; done.
Qed.

Lemma loadMoreConversations_settled_cursors r p :
  isLoading (pagination (loadMoreConversations_settled r p)) = false
  /\ messagesPagination (loadMoreConversations_settled r p)
     = messagesPagination p.
Proof.
  unfold loadMoreConversations_settled. by destruct r as [[c s]|e].
Qed.

Lemma loadMoreConversations_messagesPagination p :
  messagesPagination (loadMoreConversations p).1 = messagesPagination p.
Proof.
  by destruct (loadMoreConversations_cases p) as [->|(_ & _ & ->)].
Qed.

Lemma loadConversationsData_cursors p :
  exists k,
    (loadConversationsData p).2 = Some k
    /\ isLoading (pagination (loadConversationsData p).1) = true
    /\ messagesPagination (loadConversationsData p).1 = messagesPagination p.
Proof. unfold loadConversationsData, loadMoreConversations. simpl. eauto. Qed.

Lemma loadConversationMessages_cursors cid p :
  pagination (loadConversationMessages cid p).1 = pagination p
  /\ (((loadConversationMessages cid p).2 = None
       /\ isLoading (messagesPagination (loadConversationMessages cid p).1)
          = false)
      \/ (exists k,
            (loadConversationMessages cid p).2 = Some k
            /\ isLoading (messagesPagination (loadConversationMessages cid p).1)
               = true)).
Proof.
  unfold loadConversationMessages, loadMoreMessages. simpl.
  destruct (messagesContent p) as [v|] eqn:Hv; simpl.
  - rewrite bool_decide_eq_true_2 by done. simpl.
    unfold setInnerHTML. simpl. rewrite Hv. simpl. eauto.
  - eauto.
Qed.

Lemma length_delete_one {A} (l : list A) i x :
  l !! i = Some x -> length l = 1%nat -> delete i l = [].
Proof.
  destruct l as [|y [|z l]]; try discriminate.
  destruct i; [done|discriminate].
Qed.

Lemma balanced_issue c {A} (pending : list A) k :
  isLoading c = false -> pending = [] ->
  balanced (set_isLoading true c) (issue (Some k) pending).
Proof. intros _ ->. left. done. Qed.

(** One turn of the event loop keeps flags and pending requests in step,
    provided it does not reset a cursor whose request is pending. *)
Lemma step_inStep e w w' :
  inStep w ->
  (resetsMessages e = true -> messageFetches w = []) ->
  (resetsConversations e = true -> conversationFetches w = []) ->
  step e w = Some w' ->
  inStep w'.
Proof.
  intros [Hm Hc] Hrm Hrc Hstep. unfold inStep.
  destruct e as [cid|cid|cid| | |cid m|i r|i r]; simpl in Hstep.
  - (* click *)
    injection Hstep as <-. unfold withMessages, withConversations.
    cbn [here messageFetches conversationFetches fst snd]. unfold selectConversation.
    destruct (loadConversationMessages_cursors cid
                (set_selectedConversationId (Some cid) (here w)))
      as [Hp [[Hn Hl]|[k [Hk Hl]]]].
    + rewrite Hp, Hn, (Hrm eq_refl). simpl. split; [by right|done].
    + rewrite Hp, Hk, (Hrm eq_refl). simpl. split; [by left|done].
  - (* retry *)
    injection Hstep as <-. unfold withMessages, withConversations.
    cbn [here messageFetches conversationFetches fst snd].
    destruct (loadConversationMessages_cursors cid (here w))
      as [Hp [[Hn Hl]|[k [Hk Hl]]]].
    + rewrite Hp, Hn, (Hrm eq_refl). simpl. split; [by right|done].
    + rewrite Hp, Hk, (Hrm eq_refl). simpl. split; [by left|done].
  - (* older messages *)
    injection Hstep as <-. unfold withMessages, withConversations.
    cbn [here messageFetches conversationFetches fst snd].
    destruct (loadMoreMessages_cases cid false (here w))
      as [->|(k & Hk & Hl & _ & Hmp & Hp & _)]; [done|].
    rewrite Hk, Hmp, Hp. split; [|done].
    destruct Hm as [[Ht _]|[_ He]]; [congruence|].
    by apply balanced_issue.
  - (* more conversations *)
    injection Hstep as <-. unfold withMessages, withConversations.
    cbn [here messageFetches conversationFetches fst snd].
    destruct (loadMoreConversations_cases (here w)) as [->|(Hl & _ & ->)];
      [done|].
    simpl. split; [done|].
    destruct Hc as [[Ht _]|[_ He]]; [congruence|].
    by apply balanced_issue.
  - (* reload *)
    injection Hstep as <-. unfold withConversations.
    cbn [here messageFetches conversationFetches].
    destruct (loadConversationsData_cursors (here w)) as (k & Hk & Hl & Hmp).
    rewrite Hk, Hmp, (Hrc eq_refl). split; [done|by left].
  - (* push *)
    injection Hstep as <-. unfold withMessages, withConversations.
    cbn [here messageFetches conversationFetches fst snd].
    destruct (handleNewMessage_cursors cid m (here w)) as [-> ->]. done.
  - (* messages settle *)
    destruct (messageFetches w !! i) as [k|] eqn:Hi; [|discriminate].
    injection Hstep as <-. unfold withMessages, withConversations.
    cbn [here messageFetches conversationFetches fst snd].
    destruct (loadMoreMessages_settled_cursors k r (here w)) as [Hl ->].
    split; [|done]. right. split; [done|].
    destruct Hm as [[_ Hlen]|[_ He]].
    + by eapply length_delete_one.
    + by rewrite He in Hi.
  - (* conversations settle *)
    destruct (conversationFetches w !! i) as [k|] eqn:Hi; [|discriminate].
    injection Hstep as <-. unfold withMessages, withConversations.
    cbn [here messageFetches conversationFetches fst snd].
    destruct (loadMoreConversations_settled_cursors r (here w)) as [Hl ->].
    split; [done|]. right. split; [done|].
    destruct Hc as [[_ Hlen]|[_ He]].
    + by eapply length_delete_one.
    + by rewrite He in Hi.
Qed.

Lemma run_inStep es : forall w w',
  inStep w -> calm es w -> run es w = Some w' -> inStep w'.
Proof.
  induction es as [|e es IH]; intros w w' Hin Hcalm Hrun; simpl in *.
  - by injection Hrun as <-.
  - destruct Hcalm as (Hrm & Hrc & Hrest).
    destruct (step e w) as [w1|] eqn:Hstep; [|discriminate].
    eapply IH; [|exact Hrest|exact Hrun].
    eapply step_inStep; eauto.
Qed.

Lemma inStep_oneFetchPerCursor w : inStep w -> oneFetchPerCursor w.
Proof.
  intros [[[_ Hm]|[_ Hm]] [[_ Hc]|[_ Hc]]]; unfold oneFetchPerCursor;
    rewrite ?Hm, ?Hc; simpl; lia.
Qed.

(** C4 (as amended): for each of the two cursors a load attempt made while
    [isLoading] is true, whatever [hasMore] is, or while [hasMore] is false
    returns at once: the page is unchanged and no request is issued.  Hence,
    along every run in which no cursor is reset while a request of it is
    pending, at most one request per cursor is in flight. *)
Theorem load_gate_blocks_second_fetch :
  (forall p : Page,
      isLoading (pagination p) = true \/ hasMore (pagination p) = false ->
      loadMoreConversations p = (p, None))
  /\ (forall (cid : string) (initial : bool) (p : Page),
         isLoading (messagesPagination p) = true
         \/ hasMore (messagesPagination p) = false ->
         loadMoreMessages cid initial p = (p, None))
  /\ (forall (es : list Event) (w w' : World),
         inStep w -> calm es w -> run es w = Some w' ->
         oneFetchPerCursor w').
Proof.
  split; [exact loadMoreConversations_gate|].
  split; [exact loadMoreMessages_gate|].
  intros es w w' Hin Hcalm Hrun.
  apply inStep_oneFetchPerCursor. by eapply run_inStep.
Qed.

(** Scrolling while the first page of either list is pending issues nothing. *)
Lemma load_gate_blocks_second_fetch_witness :
  loadMoreConversations (here Samples.worldImpatient)
  = (here Samples.worldImpatient, None)
  /\ loadMoreMessages "A" false (here Samples.worldImpatient)
     = (here Samples.worldImpatient, None)
  /\ length (messageFetches Samples.worldImpatient) = 1%nat
  /\ length (conversationFetches Samples.worldImpatient) = 1%nat
  /\ oneFetchPerCursor Samples.worldImpatient.
Proof.
  destruct load_gate_blocks_second_fetch as (Hc & Hm & Hrun).
  split; [apply Hc; left; vm_compute; reflexivity|].
  split; [apply Hm; left; vm_compute; reflexivity|].
  split; [vm_compute; reflexivity|].
  split; [vm_compute; reflexivity|].
  apply (Hrun Samples.impatient initialWorld).
  - split; right; split; reflexivity.
  - simpl. repeat split; try discriminate; reflexivity.
  - vm_compute. reflexivity.
Defined.

(** C4 (as stated) fails: a second click on [A] while its messages are
    pending assigns a fresh cursor, whose gate is open, and a second request
    for the same page of the same conversation goes out next to the first. *)
Lemma two_message_fetches_after_second_click : ~ everOneFetchPerCursor.
Proof.
  intros H.
  destruct (H Samples.doubleClick Samples.worldDoubleClick) as [Hm _].
  - vm_compute. reflexivity.
  - vm_compute in Hm. lia.
Qed.

(** C2, the code on the failing input: [A] is clicked, then [B] before the
    messages of [A] have arrived.  When the page of [A] arrives, with [B]
    selected and the request of [B] still pending, the continuation stores it
    in the cache, overwrites the cursor of [B] and shows it in the pane. *)
Theorem stale_messages_are_merged :
  let before := here Samples.worldSwitched in
  let after := here Samples.worldStale in
  step (OnMessages 0 Samples.stalePage) Samples.worldSwitched
  = Some Samples.worldStale
  /\ selectedConversationId before = Some "B"
  /\ selectedConversationId after = Some "B"
  /\ messageFetches Samples.worldStale
     = [{| ma_conversationId := "B"; ma_isInitialLoad := true;
           ma_page := 0; ma_limit := 10 |}]
  /\ loadedMessages before !! "A" = None
  /\ loadedMessages after !! "A"
     = Some [Samples.a1; Samples.a2; Samples.a3; Samples.a4; Samples.a5]
  /\ messagesPagination before
     = {| currentPage := 0; limit := 10; hasMore := true; isLoading := true;
          conversationId := Some "B" |}
  /\ messagesPagination after
     = {| currentPage := 1; limit := 10; hasMore := false; isLoading := false;
          conversationId := Some "B" |}
  /\ messagesContent before = Some ViewLoading
  /\ messagesContent after
     = Some (ViewMessages false
               [Samples.a1; Samples.a2; Samples.a3; Samples.a4; Samples.a5]).
Proof. vm_compute. repeat split; reflexivity. Qed.

(** ** A failed page load *)

Lemma set_isLoading_twice b b' c :
  set_isLoading b (set_isLoading b' c) = set_isLoading b c.
Proof. done. Qed.

Lemma set_isLoading_same c : set_isLoading (isLoading c) c = c.
Proof. by destruct c. Qed.

Lemma loadMoreMessages_issued cid initial p p1 k :
  loadMoreMessages cid initial p = (p1, Some k) ->
  is_Some (messagesContent p)
  /\ isLoading (messagesPagination p) = false
  /\ hasMore (messagesPagination p) = true
  /\ conversationId (messagesPagination p) = Some cid
  /\ k = {| ma_conversationId := cid; ma_isInitialLoad := initial;
            ma_page := currentPage (messagesPagination p);
            ma_limit := limit (messagesPagination p) |}
  /\ is_Some (messagesContent p1)
  /\ messagesPagination p1 = set_isLoading true (messagesPagination p)
  /\ pagination p1 = pagination p
  /\ loadedMessages p1 = loadedMessages p
  /\ loadedConversations p1 = loadedConversations p.
Proof.
  unfold loadMoreMessages.
  destruct (messagesContent p) as [v|] eqn:Hv; [|discriminate].
  destruct (isLoading (messagesPagination p)) eqn:Hl; [discriminate|].
  destruct (hasMore (messagesPagination p)) eqn:Hm; [|discriminate].
  simpl. case_bool_decide as Hc; [|discriminate]. simpl.
  intros [= <- <-]. repeat (split; [by eauto|]).
  destruct initial; simpl.
  - unfold setInnerHTML. simpl. rewrite Hv. simpl. eauto.
  - unfold showMessagesLoadingIndicator. simpl. rewrite Hv.
    destruct v; simpl; rewrite ?Hv; eauto 10.
Qed.

Lemma loadMoreMessages_open cid initial p :
  is_Some (messagesContent p) ->
  isLoading (messagesPagination p) = false ->
  hasMore (messagesPagination p) = true ->
  conversationId (messagesPagination p) = Some cid ->
  (loadMoreMessages cid initial p).2
  = Some {| ma_conversationId := cid; ma_isInitialLoad := initial;
            ma_page := currentPage (messagesPagination p);
            ma_limit := limit (messagesPagination p) |}.
Proof.
  intros [v Hv] Hl Hm Hc. unfold loadMoreMessages.
  rewrite Hv, Hl, Hm. simpl. by rewrite bool_decide_eq_true_2.
Qed.

Lemma loadMoreMessages_settled_rejected k error p :
  let p' := loadMoreMessages_settled k (DataService.Raised error) p in
  messagesPagination p' = set_isLoading false (messagesPagination p)
  /\ pagination p' = pagination p
  /\ loadedMessages p' = loadedMessages p
  /\ loadedConversations p' = loadedConversations p
  /\ (is_Some (messagesContent p) -> is_Some (messagesContent p')).
Proof.
  unfold loadMoreMessages_settled.
  destruct (ma_isInitialLoad k); simpl; pane_cases;
    repeat split; eauto; by intros [? ?].
Qed.

Lemma loadMoreMessages_settled_page k fetched info p :
  let r := DataService.Returned
             (Some {| messages := Some fetched; md_pagination := Some info |}) in
  messagesPagination (loadMoreMessages_settled k r p)
  = set_isLoading false
      (set_progress (pi_hasMore info) (page info + 1) (messagesPagination p)).
Proof.
  unfold loadMoreMessages_settled.
  destruct (ma_isInitialLoad k); simpl; pane_cases; done.
Qed.

Lemma loadMoreConversations_settled_rejected error p :
  let p' := loadMoreConversations_settled (DataService.Raised error) p in
  pagination p' = set_isLoading false (pagination p)
  /\ messagesPagination p' = messagesPagination p
  /\ loadedMessages p' = loadedMessages p
  /\ loadedConversations p' = loadedConversations p
  /\ messagesContent p' = messagesContent p.
Proof. done. Qed.

(** C5: when the fetch of a page load fails, the cursor is rolled back:
    [isLoading] is false again, [currentPage] and [hasMore] are what they were
    before the attempt, the conversations and messages already loaded are
    kept; the same call made again issues the same request, and if that one
    succeeds with the requested page the cursor advances by one.  This holds
    for the conversation list and for the message list.  Whatever happened
    while the request was pending, handling the failure assigns nothing but
    [isLoading]. *)
Theorem failed_load_rolls_cursor_back :
  (forall (p p1 : Page) (k : ConversationsAwait) (error : string),
      loadMoreConversations p = (p1, Some k) ->
      let p2 := loadMoreConversations_settled (DataService.Raised error) p1 in
      isLoading (pagination p2) = false
      /\ currentPage (pagination p2) = currentPage (pagination p)
      /\ hasMore (pagination p2) = hasMore (pagination p)
      /\ loadedConversations p2 = loadedConversations p
      /\ loadedMessages p2 = loadedMessages p
      /\ (loadMoreConversations p2).2 = Some k
      /\ forall (cd : ConversationsData) (sd : StatesData),
          page (cd_pagination cd) = ca_page k ->
          currentPage
            (pagination
               (loadMoreConversations_settled (DataService.Returned (cd, sd))
                  (loadMoreConversations p2).1))
          = currentPage (pagination p) + 1)
  /\ (forall (cid : string) (initial : bool) (p p1 : Page)
             (k : MessagesAwait) (error : string),
         loadMoreMessages cid initial p = (p1, Some k) ->
         let p2 := loadMoreMessages_settled k (DataService.Raised error) p1 in
         isLoading (messagesPagination p2) = false
         /\ currentPage (messagesPagination p2)
            = currentPage (messagesPagination p)
         /\ hasMore (messagesPagination p2) = hasMore (messagesPagination p)
         /\ loadedMessages p2 = loadedMessages p
         /\ loadedConversations p2 = loadedConversations p
         /\ (loadMoreMessages cid initial p2).2 = Some k
         /\ forall (fetched : list Message) (info : PageInfo),
             page info = ma_page k ->
             currentPage
               (messagesPagination
                  (loadMoreMessages_settled k
                     (DataService.Returned
                        (Some {| messages := Some fetched;
                                 md_pagination := Some info |}))
                     (loadMoreMessages cid initial p2).1))
             = currentPage (messagesPagination p) + 1)
  /\ (forall (error : string) (p : Page),
         let p' := loadMoreConversations_settled (DataService.Raised error) p in
         pagination p' = set_isLoading false (pagination p)
         /\ loadedConversations p' = loadedConversations p
         /\ loadedMessages p' = loadedMessages p)
  /\ (forall (k : MessagesAwait) (error : string) (p : Page),
         let p' := loadMoreMessages_settled k (DataService.Raised error) p in
         messagesPagination p' = set_isLoading false (messagesPagination p)
         /\ loadedConversations p' = loadedConversations p
         /\ loadedMessages p' = loadedMessages p).
Proof.
  split; [|split; [|split]]; cycle 2.
  { intros error p. by destruct (loadMoreConversations_settled_rejected error p)
      as (? & _ & ? & ? & _). }
  { intros k error p. by destruct (loadMoreMessages_settled_rejected k error p)
      as (? & _ & ? & ? & _). }
  - intros p p1 k error Hload p2.
    destruct (loadMoreConversations_cases p) as [Hno|(Hl & Hm & Hyes)];
      [congruence|].
    rewrite Hyes in Hload. injection Hload as <- <-.
    assert (pagination p2 = pagination p) as Hp.
    { subst p2. simpl. destruct (pagination p). simpl in Hl. by subst. }
    assert (loadMoreConversations p2
            = (set_pagination (set_isLoading true (pagination p2)) p2,
               Some {| ca_page := currentPage (pagination p2);
                       ca_limit := limit (pagination p2) |})) as Hretry.
    { destruct (loadMoreConversations_cases p2) as [Hno|(_ & _ & ->)]; [|done].
      unfold loadMoreConversations in Hno. rewrite Hp, Hl, Hm in Hno.
      discriminate. }
    rewrite Hretry, Hp. simpl. repeat split; try done.
    intros cd sd ->. done.
  - intros cid initial p p1 k error Hload p2.
    destruct (loadMoreMessages_issued _ _ _ _ _ Hload)
      as (Hv & Hl & Hm & Hc & Hk & Hv1 & Hmp1 & _ & Hlm1 & Hlc1).
    destruct (loadMoreMessages_settled_rejected k error p1)
      as (Hmp2 & _ & Hlm2 & Hlc2 & Hv2).
    fold p2 in Hmp2, Hlm2, Hlc2, Hv2.
    assert (messagesPagination p2 = messagesPagination p) as Hp.
    { rewrite Hmp2, Hmp1, set_isLoading_twice, <- Hl.
      apply set_isLoading_same. }
    rewrite Hp, Hlm2, Hlm1, Hlc2, Hlc1. repeat split; try done.
    + rewrite loadMoreMessages_open; rewrite ?Hp; auto. by rewrite Hk.
    + intros fetched info Hpage.
      rewrite loadMoreMessages_settled_page. simpl. rewrite Hpage, Hk. simpl.
      destruct (loadMoreMessages_cases cid initial p2)
        as [Hno|(k' & _ & _ & _ & Hmp3 & _)].
      * pose proof (loadMoreMessages_open cid initial p2) as Hopen.
        rewrite Hno, Hp in Hopen. simpl in Hopen.
        specialize (Hopen (Hv2 Hv1) Hl Hm Hc). discriminate.
      * done.
Qed.

(** The first conversation page and the first message page of [A] fail once
    and are then retried. *)
Lemma failed_load_rolls_cursor_back_witness :
  let c1 := (loadMoreConversations initialPage).1 in
  let c2 := loadMoreConversations_settled (DataService.Raised "Failed to fetch") c1 in
  let m1 := (loadMoreMessages "A" true Samples.readyA).1 in
  let k := {| ma_conversationId := "A"; ma_isInitialLoad := true;
              ma_page := 0; ma_limit := 10 |} in
  let m2 := loadMoreMessages_settled k (DataService.Raised "Failed to fetch") m1 in
  (isLoading (pagination c1) = true
   /\ isLoading (pagination c2) = false
   /\ currentPage (pagination c2) = 0
   /\ currentPage
        (pagination
           (loadMoreConversations_settled
              (Samples.conversationPage [Samples.conversation "c0"] 0 true)
              (loadMoreConversations c2).1)) = 1)
  /\ (isLoading (messagesPagination m1) = true
      /\ isLoading (messagesPagination m2) = false
      /\ currentPage (messagesPagination m2) = 0
      /\ (loadMoreMessages "A" true m2).2 = Some k
      /\ currentPage
           (messagesPagination
              (loadMoreMessages_settled k
                 (Samples.messagePage [Samples.a1] 0 true)
                 (loadMoreMessages "A" true m2).1)) = 1).
Proof.
  intros c1 c2 m1 k m2.
  destruct failed_load_rolls_cursor_back as (Hconv & Hmsg & _).
  split.
  - destruct (Hconv initialPage c1 {| ca_page := 0; ca_limit := 10 |}
                "Failed to fetch" eq_refl)
      as (Hl & Hp & _ & _ & _ & _ & Hretry).
    split; [reflexivity|]. split; [exact Hl|]. split; [exact Hp|].
    exact (Hretry {| conversations := [Samples.conversation "c0"];
                     cd_pagination := {| page := 0; pi_hasMore := true;
                                         totalCount := 17 |} |}
             None eq_refl).
  - destruct (Hmsg "A" true Samples.readyA m1 k "Failed to fetch" eq_refl)
      as (Hl & Hp & _ & _ & _ & Hagain & Hretry).
    split; [reflexivity|]. split; [exact Hl|]. split; [exact Hp|].
    split; [exact Hagain|].
    exact (Hretry [Samples.a1]
             {| page := 0; pi_hasMore := true; totalCount := 0 |} eq_refl).
Defined.

(** ** A successful conversation-page load *)

(** C6 (as amended): a successful conversation-page load appends the returned
    items to the accumulated list, takes [hasMore] from the response, puts
    [isLoading] back to false and sets the cursor page to the page the server
    reports plus one, which is an advance by one whenever the response carries
    the page that was requested.  After page 0 with 10 items ([hasMore] true)
    and page 1 with 7 items ([hasMore] false) the list has 17 items and the
    cursor page is 2. *)
Theorem conversation_page_load_completes :
  (forall (p : Page) (cd : ConversationsData) (sd : StatesData),
      let p' := loadMoreConversations_settled (DataService.Returned (cd, sd)) p in
      loadedConversations p'
      = (loadedConversations p ++ conversations cd)%list
      /\ hasMore (pagination p') = pi_hasMore (cd_pagination cd)
      /\ isLoading (pagination p') = false
      /\ currentPage (pagination p') = page (cd_pagination cd) + 1)
  /\ (forall (p p1 : Page) (k : ConversationsAwait)
             (cd : ConversationsData) (sd : StatesData),
         loadMoreConversations p = (p1, Some k) ->
         page (cd_pagination cd) = ca_page k ->
         currentPage
           (pagination
              (loadMoreConversations_settled (DataService.Returned (cd, sd)) p1))
         = currentPage (pagination p) + 1)
  /\ (forall (first second : list Conversation) (sd sd' : StatesData)
             (total : Z),
         length first = 10%nat ->
         length second = 7%nat ->
         exists w,
           run [OnReload;
                OnConversations 0
                  (DataService.Returned
                     ({| conversations := first;
                         cd_pagination := {| page := 0; pi_hasMore := true;
                                             totalCount := total |} |}, sd));
                OnScrollBottom;
                OnConversations 0
                  (DataService.Returned
                     ({| conversations := second;
                         cd_pagination := {| page := 1; pi_hasMore := false;
                                             totalCount := total |} |}, sd'))]
               initialWorld = Some w
           /\ length (loadedConversations (here w)) = 17%nat
           /\ currentPage (pagination (here w)) = 2
           /\ hasMore (pagination (here w)) = false
           /\ isLoading (pagination (here w)) = false
           /\ conversationFetches w = []).
Proof.
  split; [done|]. split.
  - intros p p1 k cd sd Hload Hpage.
    destruct (loadMoreConversations_cases p) as [Hno|(_ & _ & Hyes)];
      [congruence|].
    rewrite Hyes in Hload. injection Hload as <- <-. simpl in *.
    by rewrite Hpage.
  - intros first second sd sd' total H10 H7.
    eexists. split; [reflexivity|]. simpl.
    rewrite length_app, H10, H7. done.
Qed.

(** The two pages of the scenario, and a first page that echoes the request. *)
Lemma conversation_page_load_completes_witness :
  (currentPage
     (pagination
        (loadMoreConversations_settled
           (Samples.conversationPage Samples.firstTen 0 true)
           (loadMoreConversations initialPage).1)) = 1)
  /\ exists w,
      run [OnReload;
           OnConversations 0 (Samples.conversationPage Samples.firstTen 0 true);
           OnScrollBottom;
           OnConversations 0 (Samples.conversationPage Samples.nextSeven 1 false)]
          initialWorld = Some w
      /\ length (loadedConversations (here w)) = 17%nat
      /\ currentPage (pagination (here w)) = 2.
Proof.
  destruct conversation_page_load_completes as (_ & Hecho & Hscenario).
  split.
  - exact (Hecho initialPage _ {| ca_page := 0; ca_limit := 10 |}
             {| conversations := Samples.firstTen;
                cd_pagination := {| page := 0; pi_hasMore := true;
                                    totalCount := 17 |} |}
             None eq_refl eq_refl).
  - destruct (Hscenario Samples.firstTen Samples.nextSeven None None 17
                eq_refl eq_refl) as (w & Hrun & Hlen & Hpage & _).
    exists w. split; [exact Hrun|]. split; [exact Hlen|exact Hpage].
Defined.

(** C6 (as stated) fails: asked for page 0, a server that numbers its pages
    from 1 reports [page: 1], and the cursor goes from 0 to 2. *)
Lemma conversation_page_follows_server : ~ pageAdvancesByOne.
Proof.
  intros H.
  specialize (H initialPage (loadMoreConversations initialPage).1
                {| ca_page := 0; ca_limit := 10 |}
                {| conversations := Samples.firstTen;
                   cd_pagination := {| page := 1; pi_hasMore := true;
                                       totalCount := 17 |} |}
                None eq_refl).
  vm_compute in H. discriminate.
Qed.

(** ** Merging a message page *)

Lemma loadMoreMessages_settled_merge k fetched pg p :
  let cid := ma_conversationId k in
  let r := DataService.Returned
             (Some {| messages := Some fetched; md_pagination := pg |}) in
  let merged := if ma_isInitialLoad k then fetched
                else (fetched ++ cached cid p)%list in
  let p' := loadMoreMessages_settled k r p in
  loadedMessages p' = <[cid := merged]> (loadedMessages p)
  /\ (is_Some (messagesContent p) ->
      messagesContent p' = Some (ViewMessages false merged))
  /\ messagesPagination p'
     = set_isLoading false
         (match pg with
          | Some info => set_progress (pi_hasMore info) (page info + 1)
                                      (messagesPagination p)
          | None => set_progress false 1 (messagesPagination p)
          end).
Proof.
  unfold loadMoreMessages_settled, cached, renderCachedMessages,
    showMessagesLoadingIndicator.
  destruct (messagesContent p) as [v|] eqn:Hv;
    destruct (ma_isInitialLoad k), pg; simpl;
    repeat (rewrite !Hv; simpl);
    repeat split; try done; by intros [? ?].
Qed.

(** C8: a load-older (non-initial) message page is merged in front: the cached
    sequence of the conversation becomes the fetched messages, in the order
    received, followed by what was cached before; nothing is sorted and no
    other conversation's cache is touched. *)
Theorem older_messages_are_prepended :
  forall (k : MessagesAwait) (md : MessagesData) (older : list Message)
         (p : Page),
    ma_isInitialLoad k = false ->
    messages md = Some older ->
    let cid := ma_conversationId k in
    let p' := loadMoreMessages_settled k (DataService.Returned (Some md)) p in
    cached cid p' = (older ++ cached cid p)%list
    /\ (forall other, other <> cid ->
                      loadedMessages p' !! other = loadedMessages p !! other)
    /\ (is_Some (messagesContent p) ->
        messagesContent p'
        = Some (ViewMessages false (older ++ cached cid p)%list)).
Proof.
  intros k [ms pg] older p Hinit Hms cid p'. simpl in Hms. subst ms.
  destruct (loadMoreMessages_settled_merge k older pg p) as (Hlm & Hv & _).
  rewrite Hinit in Hlm, Hv. fold cid p' in Hlm, Hv.
  split; [|split].
  - unfold cached at 1. rewrite Hlm. by rewrite lookup_insert_eq.
  - intros other Hne. rewrite Hlm. by rewrite lookup_insert_ne.
  - exact Hv.
Qed.

(** [a4; a5] are cached for [A]; the older page [a1; a2; a3] arrives. *)
Lemma older_messages_are_prepended_witness :
  cached "A" (here Samples.worldScrolledUp) = [Samples.a4; Samples.a5]
  /\ cached "A"
       (loadMoreMessages_settled Samples.olderAwait
          (Samples.messagePage [Samples.a1; Samples.a2; Samples.a3] 1 false)
          (here Samples.worldScrolledUp))
     = [Samples.a1; Samples.a2; Samples.a3; Samples.a4; Samples.a5].
Proof.
  split; [vm_compute; reflexivity|].
  destruct (older_messages_are_prepended Samples.olderAwait
              {| messages := Some [Samples.a1; Samples.a2; Samples.a3];
                 md_pagination := Some {| page := 1; pi_hasMore := false;
                                          totalCount := 0 |} |}
              [Samples.a1; Samples.a2; Samples.a3]
              (here Samples.worldScrolledUp) eq_refl eq_refl) as (Hc & _).
  etransitivity; [exact Hc|]. vm_compute. reflexivity.
Defined.

(** ** An exhausted message cursor *)

Lemma step_exhausted e w w' :
  hasMore (messagesPagination (here w)) = false ->
  messageFetches w = [] ->
  resetsMessages e = false ->
  step e w = Some w' ->
  hasMore (messagesPagination (here w')) = false /\ messageFetches w' = [].
Proof.
  intros Hm Hf Hr Hstep.
  destruct e as [cid|cid|cid| | |cid m|i r|i r]; try discriminate;
    simpl in Hstep.
  - rewrite loadMoreMessages_gate in Hstep by auto.
    injection Hstep as <-. done.
  - injection Hstep as <-. unfold withConversations.
    cbn [here messageFetches fst].
    by rewrite loadMoreConversations_messagesPagination.
  - injection Hstep as <-. done.
  - injection Hstep as <-. cbn [here messageFetches].
    by destruct (handleNewMessage_cursors cid m (here w)) as [_ ->].
  - rewrite Hf in Hstep. discriminate.
  - destruct (conversationFetches w !! i); [|discriminate].
    injection Hstep as <-. cbn [here messageFetches].
    by destruct (loadMoreConversations_settled_cursors r (here w)) as [_ ->].
Qed.

Lemma run_exhausted es : forall w w',
  hasMore (messagesPagination (here w)) = false ->
  messageFetches w = [] ->
  Forall (fun e => resetsMessages e = false) es ->
  run es w = Some w' ->
  hasMore (messagesPagination (here w')) = false /\ messageFetches w' = [].
Proof.
  induction es as [|e es IH]; intros w w' Hm Hf Hes Hrun; simpl in Hrun.
  - by injection Hrun as <-.
  - inversion Hes as [|? ? He Hes']; subst.
    destruct (step e w) as [w1|] eqn:Hstep; [|discriminate].
    destruct (step_exhausted e w w1 Hm Hf He Hstep) as [Hm1 Hf1].
    by apply (IH w1 w').
Qed.

(** C9 (as amended): when a message page arrives without pagination
    metadata, the cursor is marked fully loaded: [hasMore] becomes false (and
    [currentPage] 1, [isLoading] false); from then on every load attempt
    returns at once without a request, and, provided no other message
    request is pending at that moment, [hasMore] stays false until a click
    or retry assigns a fresh cursor. *)
Theorem bare_message_page_ends_paging :
  forall (k : MessagesAwait) (md : MessagesData) (fetched : list Message)
         (p : Page),
    messages md = Some fetched ->
    md_pagination md = None ->
    let p' := loadMoreMessages_settled k (DataService.Returned (Some md)) p in
    hasMore (messagesPagination p') = false
    /\ isLoading (messagesPagination p') = false
    /\ currentPage (messagesPagination p') = 1
    /\ (forall (cid : string) (initial : bool),
           loadMoreMessages cid initial p' = (p', None))
    /\ (forall (es : list Event) (w w' : World),
           here w = p' ->
           messageFetches w = [] ->
           Forall (fun e => resetsMessages e = false) es ->
           run es w = Some w' ->
           hasMore (messagesPagination (here w')) = false
           /\ messageFetches w' = []).
Proof.
  intros k [ms pg] fetched p Hms Hpg p'. simpl in Hms, Hpg. subst ms pg.
  destruct (loadMoreMessages_settled_merge k fetched None p) as (_ & _ & Hc).
  fold p' in Hc.
  assert (hasMore (messagesPagination p') = false) as Hm by by rewrite Hc.
  split; [done|]. split; [by rewrite Hc|]. split; [by rewrite Hc|]. split.
  - intros cid initial. apply loadMoreMessages_gate. by right.
  - intros es w w' Hw Hf Hes Hrun.
    apply (run_exhausted es w w'); try done. by rewrite Hw.
Qed.

(** [A] is selected and the server answers with a bare list of messages; the
    user then scrolls the pane and a push message arrives. *)
Lemma bare_message_page_ends_paging_witness :
  let k := {| ma_conversationId := "A"; ma_isInitialLoad := true;
              ma_page := 0; ma_limit := 10 |} in
  let p' := loadMoreMessages_settled k
              (Samples.barePage [Samples.a1; Samples.a2])
              (loadMoreMessages "A" true Samples.readyA).1 in
  let w := {| here := p'; messageFetches := []; conversationFetches := [] |} in
  hasMore (messagesPagination p') = false
  /\ loadMoreMessages "A" false p' = (p', None)
  /\ exists w',
      run [OnScrollTop "A"; OnPush "A" Samples.a3; OnScrollTop "A"] w = Some w'
      /\ hasMore (messagesPagination (here w')) = false
      /\ messageFetches w' = [].
Proof.
  intros k p' w.
  destruct (bare_message_page_ends_paging k
              {| messages := Some [Samples.a1; Samples.a2];
                 md_pagination := None |}
              [Samples.a1; Samples.a2]
              (loadMoreMessages "A" true Samples.readyA).1 eq_refl eq_refl)
    as (Hm & _ & _ & Hgate & Hrun).
  split; [exact Hm|]. split; [exact (Hgate "A" false)|].
  eexists. split; [vm_compute; reflexivity|].
  eapply (Hrun [OnScrollTop "A"; OnPush "A" Samples.a3; OnScrollTop "A"] w).
  - reflexivity.
  - reflexivity.
  - repeat constructor.
  - vm_compute. reflexivity.
Defined.

(** C9 (as stated) fails: [A] is clicked twice, so two requests for its
    first page are pending.  The first is answered without pagination
    metadata and sets [hasMore] to false; the second, answered with
    [hasMore: true], sets it back without any reset in between, and the next
    scroll to the top requests page 1. *)
Lemma bare_page_overwritten_by_pending_fetch : ~ barePageIsTerminal.
Proof.
  intros H.
  specialize (H Samples.doubleClick Samples.bareThenPaged
                Samples.worldDoubleClick
                (default initialWorld
                   (step (OnMessages 0 (Samples.barePage [Samples.a1]))
                         Samples.worldDoubleClick))
                Samples.worldBareThenPaged 0%nat [Samples.a1]).
  assert (hasMore (messagesPagination (here Samples.worldBareThenPaged)) = true
          /\ messageFetches Samples.worldBareThenPaged
             = [{| ma_conversationId := "A"; ma_isInitialLoad := false;
                   ma_page := 1; ma_limit := 10 |}]) as [Hmore _]
      by (vm_compute; split; reflexivity).
  rewrite H in Hmore; [discriminate| | | |].
  - vm_compute. reflexivity.
  - vm_compute. reflexivity.
  - repeat constructor.
  - vm_compute. reflexivity.
Qed.

(** ** filterConversations *)














(** *** Lower-casing of ASCII text and sameness ignoring case *)










